(** * ESMValTool installation script (setup.py)

    A shallow embedding of [setup.py]: the module constant [PACKAGES], the
    [RunTests] command class with its two lifecycle hooks and its [run]
    action, and the module body that opens [README.md] and calls [setup].

    Python statements are embedded in a state-and-exception monad over an
    explicit program state.  The external parties of the script (the test
    engine behind [pytest.main], the build tool behind [setup]) are not
    part of the script: the engine is a component of the state that [run]
    looks up and calls, and the embedding of the module body stops at the
    call of [setup], whose keywords it yields.

    The interpreter is taken to be CPython 3 on a POSIX system. *)

From Stdlib Require Import ZArith Ascii String.
From stdpp Require Import gmap strings list fin_maps.

Local Open Scope Z_scope.
Local Open Scope string_scope.

(** ** Python values, exceptions and the effect monad *)

Module Py.

(** The exceptions the script can raise.  [SystemExit] carries the
    integer handed to [sys.exit]; [Unsupported] marks a use of
    [str.format] outside the fragment embedded below. *)
Inductive exn : Type :=
| ImportError (module_name : string)
| FileNotFoundError (path : string)
| IsADirectoryError (path : string)
| PermissionError (path : string)
| UnicodeDecodeError
| IndexError
| ValueError
| Unsupported
| SystemExit (code : Z).

Inductive result (A : Type) : Type :=
| Ok (a : A)
| Raise (e : exn).
Arguments Ok {A} a.
Arguments Raise {A} e.

Definition rbind {A B} (r : result A) (k : A → result B) : result B :=
  match r with
  | Ok a => k a
  | Raise e => Raise e
  end.

Definition rmap {A B} (f : A → B) (r : result A) : result B :=
  rbind r (λ a, Ok (f a)).

(** Values stored in instance attributes. *)
Inductive val : Type :=
| VNone
| VBool (b : bool)
| VInt (n : Z)
| VStr (s : string).

(** [template.format(a1, a2, ...)] for templates made of literal text, the
    escapes [{{] and [}}], and automatically numbered fields [{}].
    Each [{}] consumes the next positional argument; arguments left
    over are ignored, and a brace left alone is a [ValueError], as in
    Python.  Named or indexed fields and format specifications are outside
    the fragment. *)
Fixpoint format (template : string) (args : list string) : result string :=
  match template with
  | EmptyString => Ok EmptyString
  | String "{"%char (String "{"%char rest) => rmap (String "{"%char) (format rest args)
  | String "{"%char (String "}"%char rest) =>
      match args with
      | [] => Raise IndexError
      | a :: args' => rmap (String.app a) (format rest args')
      end
  | String "{"%char EmptyString => Raise ValueError
  | String "{"%char _ => Raise Unsupported
  | String "}"%char (String "}"%char rest) => rmap (String "}"%char) (format rest args)
  | String "}"%char _ => Raise ValueError
  | String c rest => rmap (String c) (format rest args)
  end.

(** Evaluation of a list display [[e1, e2, ...]], left to right. *)
Fixpoint list_display {A} (es : list (result A)) : result (list A) :=
  match es with
  | [] => Ok []
  | e :: es' => rbind e (λ a, rmap (cons a) (list_display es'))
  end.

(** The status with which the process ends when a program finishes with
    the given result.  A normal end gives 0 and an uncaught exception
    other than [SystemExit] gives 1.  For an uncaught [SystemExit] with an
    integer, the interpreter converts the integer to a C [long] (64 bits;
    an integer that does not fit counts as -1), cuts it to an [int] and
    exits with it, and the operating system keeps the low eight bits: the
    parent sees the integer modulo 256, and 255 for one that does not
    fit. *)
Definition exit_status {A} (r : result A) : Z :=
  match r with
  | Ok _ => 0
  | Raise (SystemExit code) =>
      if ((- 2 ^ 63 <=? code) && (code <? 2 ^ 63))%Z then code mod 256 else 255
  | Raise _ => 1
  end.

Definition CR : ascii := "013"%char.
Definition LF : ascii := "010"%char.

(** Universal newlines, as a file opened for reading in text mode with
    the default [newline=None] applies them to the decoded text: [CR LF]
    and a lone [CR] both become [LF]. *)
Fixpoint universal_newlines (text : string) : string :=
  match text with
  | EmptyString => EmptyString
  | String c rest =>
      if Ascii.eqb c CR then
        String LF
          match rest with
          | String d rest' =>
              if Ascii.eqb d LF then universal_newlines rest'
              else universal_newlines rest
          | EmptyString => EmptyString
          end
      else String c (universal_newlines rest)
  end.

Fixpoint has_cr (text : string) : bool :=
  match text with
  | EmptyString => false
  | String c rest => Ascii.eqb c CR || has_cr rest
  end.

End Py.

(** ** Program state *)

(** An entry of the file system, by path relative to the invocation
    directory: a regular file with its bytes, a directory, or a regular
    file that the process is not permitted to read. *)
Inductive node : Type :=
| File (contents : string)
| Dir
| Locked.

(** An importable module offering [main], as [pytest] does: called with
    its argument list it works on the file system and returns a status
    code or raises. *)
Record py_module : Type := {
  main : list string → gmap string node → Py.result Z * gmap string node
}.

Record state : Type := {
  (** the attributes of the command object the build tool instantiated *)
  instance : gmap string Py.val;
  files : gmap string node;
  site_packages : gmap string py_module;
  (** the argument lists with which a test engine was invoked, oldest first *)
  invocations : list (list string);
  (** the strict decoder of the locale's preferred encoding, from the bytes
      of a file to the text they stand for (text is held in UTF-8); [None]
      on bytes that are not valid in that encoding *)
  decode : string → option string
}.

Definition M (A : Type) : Type := state → Py.result A * state.

#[global] Instance M_ret : MRet M := λ A a s, (Py.Ok a, s).
#[global] Instance M_bind : MBind M := λ A B k m s,
  match m s with
  | (Py.Ok a, s') => k a s'
  | (Py.Raise e, s') => (Py.Raise e, s')
  end.

Definition raise {A} (e : Py.exn) : M A := λ s, (Py.Raise e, s).
Definition lift {A} (r : Py.result A) : M A := λ s, (r, s).

(** [import name] inside a function body. *)
Definition import (name : string) : M py_module :=
  λ s, match site_packages s !! name with
       | Some m => (Py.Ok m, s)
       | None => (Py.Raise (Py.ImportError name), s)
       end.

(** [m.main(args)]: the engine runs on the files, the call is logged. *)
Definition call_main (m : py_module) (args : list string) : M Z :=
  λ s, let '(r, fs) := main m args (files s) in
       (r, {| instance := instance s;
              files := fs;
              site_packages := site_packages s;
              invocations := (invocations s ++ [args])%list;
              decode := decode s |}).

(** [sys.exit(code)] with an integer argument. *)
Definition sys_exit {A} (code : Z) : M A := raise (Py.SystemExit code).

(** [open(path)] followed by [.read()]: the file is opened for reading in
    text mode, so its bytes are decoded with the locale's preferred
    encoding, strictly, and the text goes through universal newlines.
    [open] fails on a missing path, on a directory and on a file without
    read permission; [read] fails on bytes the encoding does not have. *)
Definition open_read (path : string) : M string :=
  λ s, match files s !! path with
       | Some (File contents) =>
           match decode s contents with
           | Some text => (Py.Ok (Py.universal_newlines text), s)
           | None => (Py.Raise Py.UnicodeDecodeError, s)
           end
       | Some Dir => (Py.Raise (Py.IsADirectoryError path), s)
       | Some Locked => (Py.Raise (Py.PermissionError path), s)
       | None => (Py.Raise (Py.FileNotFoundError path), s)
       end.

(** ** The script *)

Definition PACKAGES : list string := ["esmvaltool"].

(** A command class as the build tool sees it: the options it declares
    and its three methods, each running on the state that holds the
    instance. *)
Record Command : Type := {
  user_options : list (string * string * string);
  initialize_options : M ();
  finalize_options : M ();
  run : M ()
}.

(** The list display handed to [pytest.main], for a given [report_dir]. *)
Definition main_args (report_dir : string) : Py.result (list string) :=
  Py.list_display [
    Py.Ok "tests";
    Py.Ok "--cov=esmvaltool";
    Py.format "--cov-report=html:{}/coverage_html" [report_dir];
    Py.format "--cov-report=xml:{}/coverage.xml" [report_dir];
    Py.format "--junit-xml={}/report.xml" [report_dir]
  ].

(** Class to run tests and generate reports.  The bodies of the two hooks
    hold a docstring and nothing else. *)
Definition RunTests : Command := {|
  user_options := [];
  initialize_options := mret ();
  finalize_options := mret ();
  run :=
    pytest ← import "pytest";
    let report_dir := "test-reports" in
    args ← lift (main_args report_dir);
    errno ← call_main pytest args;
    sys_exit errno
|}.

(** The keywords of the call of [setup]. *)
Record setup_keywords : Type := {
  name : string;
  version : string;
  description : string;
  packages : list string;
  include_package_data : bool;
  use_scm_version : bool;
  setup_requires : list string;
  install_requires : list string;
  tests_require : list string;
  entry_points : gmap string (list string);
  cmdclass : gmap string Command
}.

(** The keywords as the script writes them; [readme_text] stands for the
    value of [readme.read()]. *)
Definition keywords (readme_text : string) : setup_keywords := {|
  name := "ESMValTool";
  version := "2.0.0";
  description := readme_text;
  packages := PACKAGES;
  include_package_data := true;
  use_scm_version := true;
  setup_requires := ["setuptools_scm"];
  install_requires := [
    "cdo";
    "cf_units";
    "coverage";
    "cython";
    "esgf-pyclient";
    "numpy";
    "netCDF4";
    "matplotlib";
    "pyyaml";
    "pytest";
    "pytest-cov";
    "shapely"
  ];
  tests_require := [
    "easytest";
    "mock";
    "nose";
    "pytest";
    "pytest-cov"
  ];
  entry_points := {[ "console_scripts" := ["esmvaltool = esmvaltool.main:run"] ]};
  cmdclass := {[ "test" := RunTests ]}
|}.

(** [setup] belongs to the build tool, and everything the tool does
    (resolving the version, building, running the subcommands named on the
    command line, [test] among them) happens inside this call.  None of it
    is embedded.  The embedding stops at the call: it yields the keywords
    of the call, and the state it is paired with is the state in which
    [setup] is entered, not the one it leaves.  The result of [script] thus
    tells whether [setup] was reached and with what, and nothing about
    what came of it. *)
Definition setup (kw : setup_keywords) : M setup_keywords := mret kw.

(** The module body: [with open('README.md') as readme: setup(...)]. *)
Definition script : M setup_keywords :=
  readme_text ← open_read "README.md";
  setup (keywords readme_text).

(** The keywords a run of the script handed to the build tool, if it got
    as far as calling [setup]. *)
Definition registered (r : Py.result setup_keywords * state) : option setup_keywords :=
  match r.1 with
  | Py.Ok kw => Some kw
  | Py.Raise _ => None
  end.

(** ** How the consumers read what the script hands them *)

(** String helpers shared by the two readers below. *)
Module Str.

(** [strip_prefix p s] is the rest of [s] after [p], if [s] starts
    with [p]. *)
Fixpoint strip_prefix (p s : string) : option string :=
  match p, s with
  | EmptyString, _ => Some s
  | String a p', String b s' =>
      if Ascii.eqb a b then strip_prefix p' s' else None
  | String _ _, EmptyString => None
  end.

(** [partition c s] cuts [s] at the first occurrence of [c]. *)
Fixpoint partition (c : ascii) (s : string) : option (string * string) :=
  match s with
  | EmptyString => None
  | String a s' =>
      if Ascii.eqb a c then Some (EmptyString, s')
      else match partition c s' with
           | Some (l, r) => Some (String a l, r)
           | None => None
           end
  end.

Fixpoint lstrip (s : string) : string :=
  match s with
  | String a s' => if Ascii.eqb a " " then lstrip s' else s
  | EmptyString => EmptyString
  end.

Fixpoint rstrip (s : string) : string :=
  match s with
  | EmptyString => EmptyString
  | String a s' =>
      match rstrip s' with
      | EmptyString => if Ascii.eqb a " " then EmptyString else String a EmptyString
      | t => String a t
      end
  end.

Definition strip (s : string) : string := rstrip (lstrip s).

End Str.

(** The report sinks a test engine is asked for on its argument list:
    a coverage report of some kind written to a destination, or a result
    report in JUnit XML or in the result-log format. *)
Inductive sink : Type :=
| CoverageReport (kind dest : string)
| JUnitXml (path : string)
| ResultLog (path : string).

Definition sink_of_arg (arg : string) : option sink :=
  match Str.strip_prefix "--cov-report=" arg with
  | Some spec =>
      match Str.partition ":" spec with
      | Some (kind, dest) => Some (CoverageReport kind dest)
      | None => Some (CoverageReport spec "")
      end
  | None =>
  match Str.strip_prefix "--junit-xml=" arg with
  | Some path => Some (JUnitXml path)
  | None =>
  match Str.strip_prefix "--junitxml=" arg with
  | Some path => Some (JUnitXml path)
  | None =>
  match Str.strip_prefix "--resultlog=" arg with
  | Some path => Some (ResultLog path)
  | None =>
  match Str.strip_prefix "--result-log=" arg with
  | Some path => Some (ResultLog path)
  | None => None
  end end end end end.

Definition sinks (args : list string) : list sink := omap sink_of_arg args.

Definition sink_path (k : sink) : string :=
  match k with
  | CoverageReport _ dest => dest
  | JUnitXml path => path
  | ResultLog path => path
  end.

(** An entry-point declaration [command = module:attr] as the build tool
    reads it. *)
Record entry_point : Type := {
  command : string;
  target_module : string;
  target_attr : string
}.

Definition parse_entry_point (decl : string) : option entry_point :=
  '(lhs, rhs) ← Str.partition "=" decl;
  '(module, attr) ← Str.partition ":" rhs;
  Some {| command := Str.strip lhs;
          target_module := Str.strip module;
          target_attr := Str.strip attr |}.

(** The top-level package of a dotted module path. *)
Definition top_package (module : string) : string :=
  match Str.partition "." module with
  | Some (pkg, _) => pkg
  | None => module
  end.

Definition console_scripts (kw : setup_keywords) : list string :=
  default [] (entry_points kw !! "console_scripts").

(** The commands installed for a descriptor: one per console script. *)
Definition installed_commands (kw : setup_keywords) : option (list string) :=
  fmap command <$> mapM parse_entry_point (console_scripts kw).

(** ** The dependency sets as the specification lists them *)

Definition spec_runtime_dependencies : gset string :=
  {[ "cdo"; "cf_units"; "coverage"; "cython"; "esgf-pyclient"; "numpy";
     "netCDF4"; "matplotlib"; "pyyaml"; "pytest"; "pytest-cov"; "shapely" ]}.

Definition spec_test_dependencies : gset string :=
  {[ "easytest"; "mock"; "nose"; "pytest"; "pytest-cov" ]}.

(** ** Sample inputs *)

(** The strict decoder of the ASCII encoding: bytes below 128 stand for
    themselves, any other byte is an error. *)
Fixpoint is_ascii (raw : string) : bool :=
  match raw with
  | EmptyString => true
  | String c rest => (Ascii.N_of_ascii c <? 128)%N && is_ascii rest
  end.

Definition ascii_codec (raw : string) : option string :=
  if is_ascii raw then Some raw else None.

(** A test engine that touches nothing and reports a fixed status. *)
Definition fixed_engine (code : Z) : py_module :=
  {| main := λ _ fs, (Py.Ok code, fs) |}.

(** A checkout with a README and a [tests] directory, [pytest] installed
    and reporting status 1 (some test failed). *)
Definition checkout : state := {|
  instance := {[ "verbose" := Py.VInt 1 ]};
  files := {[ "README.md" := File "ESMValTool"; "tests" := Dir ]};
  site_packages := {[ "pytest" := fixed_engine 1 ]};
  invocations := [];
  decode := ascii_codec
|}.

(** The same without the README. *)
Definition checkout_without_readme : state := {|
  instance := ∅;
  files := {[ "tests" := Dir ]};
  site_packages := {[ "pytest" := fixed_engine 1 ]};
  invocations := [];
  decode := ascii_codec
|}.

(** A test engine that touches nothing and raises instead of returning. *)
Definition raising_engine (e : Py.exn) : py_module :=
  {| main := λ _ fs, (Py.Raise e, fs) |}.



(** The checkout with an engine that breaks down. *)
Definition checkout_broken_engine : state := {|
  instance := ∅;
  files := {[ "README.md" := File "ESMValTool"; "tests" := Dir ]};
  site_packages := {[ "pytest" := raising_engine Py.ValueError ]};
  invocations := [];
  decode := ascii_codec
|}.

(** A checkout in which [README.md] is a directory. *)
Definition checkout_readme_dir : state := {|
  instance := ∅;
  files := {[ "README.md" := Dir; "tests" := Dir ]};
  site_packages := {[ "pytest" := fixed_engine 1 ]};
  invocations := [];
  decode := ascii_codec
|}.

(** The checkout seen from another command object, after an earlier
    engine call. *)
Definition checkout_later : state := {|
  instance := {[ "verbose" := Py.VInt 0; "dry_run" := Py.VBool true ]};
  files := {[ "README.md" := File "ESMValTool"; "tests" := Dir ]};
  site_packages := {[ "pytest" := fixed_engine 1 ]};
  invocations := [["--version"]];
  decode := ascii_codec
|}.

(** The checkout with an engine that reports 256. *)
Definition checkout_status_256 : state := {|
  instance := ∅;
  files := {[ "README.md" := File "ESMValTool"; "tests" := Dir ]};
  site_packages := {[ "pytest" := fixed_engine 256 ]};
  invocations := [];
  decode := ascii_codec
|}.

(** A checkout whose README has two lines that end in [CR LF]. *)
Definition readme_crlf : string :=
  String.append "ESMValTool"
    (String Py.CR (String Py.LF
       (String.append "A tool" (String Py.CR (String Py.LF EmptyString))))).

Definition checkout_crlf : state := {|
  instance := ∅;
  files := {[ "README.md" := File readme_crlf; "tests" := Dir ]};
  site_packages := ∅;
  invocations := [];
  decode := ascii_codec
|}.

(** A checkout whose README holds a byte that is not ASCII, and one whose
    README may not be read. *)
Definition checkout_undecodable : state := {|
  instance := ∅;
  files := {[ "README.md" := File (String "255"%char EmptyString); "tests" := Dir ]};
  site_packages := ∅;
  invocations := [];
  decode := ascii_codec
|}.


(** * Properties *)

(** ** The argument list and the [run] action *)

Lemma prefix_app_cancel (d a b : string) :
  String.prefix (d +:+ a) (d +:+ b) = String.prefix a b.
Proof.
  induction d as [|c d IH]; simpl; [done|].
  destruct (ascii_dec c c); [apply IH | congruence].
Qed.

(** The three [format] calls succeed whatever the directory is, and put
    it between the option text and the file name. *)
Lemma main_args_eq (d : string) :
  main_args d = Py.Ok [
    "tests";
    "--cov=esmvaltool";
    "--cov-report=html:" +:+ d +:+ "/coverage_html";
    "--cov-report=xml:" +:+ d +:+ "/coverage.xml";
    "--junit-xml=" +:+ d +:+ "/report.xml" ].
Proof. reflexivity. Qed.

(** One step of [run] once [pytest] is found: the engine is called on the
    five arguments, the call is logged, and a returned status is turned
    into [SystemExit]. *)
Lemma run_unfold (s : state) (pytest : py_module) :
  site_packages s !! "pytest" = Some pytest →
  run RunTests s =
    let args := [ "tests"; "--cov=esmvaltool";
                  "--cov-report=html:test-reports/coverage_html";
                  "--cov-report=xml:test-reports/coverage.xml";
                  "--junit-xml=test-reports/report.xml" ] in
    let s' := {| instance := instance s;
                 files := (main pytest args (files s)).2;
                 site_packages := site_packages s;
                 invocations := (invocations s ++ [args])%list;
                 decode := decode s |} in
    match (main pytest args (files s)).1 with
    | Py.Ok errno => (Py.Raise (Py.SystemExit errno), s')
    | Py.Raise e => (Py.Raise e, s')
    end.
Proof.
  intros Hpy. cbn -[main_args]. unfold mbind, M_bind, import.
  rewrite Hpy. cbn. unfold call_main.
  destruct (main pytest _ (files s)) as [[errno|e] fs]; reflexivity.
Qed.

Lemma run_without_pytest (s : state) :
  site_packages s !! "pytest" = None →
  run RunTests s = (Py.Raise (Py.ImportError "pytest"), s).
Proof.
  intros Hpy. cbn -[main_args]. unfold mbind, M_bind, import.
  by rewrite Hpy.
Qed.

(** C1, as stated, does not hold: an engine that returns 256 is passed
    on as [SystemExit(256)], and the process ends with status 0. *)
Lemma run_status_wraps :
  (main (fixed_engine 256)
     [ "tests"; "--cov=esmvaltool";
       "--cov-report=html:test-reports/coverage_html";
       "--cov-report=xml:test-reports/coverage.xml";
       "--junit-xml=test-reports/report.xml" ]
     (files checkout_status_256)).1 = Py.Ok 256 ∧
  (run RunTests checkout_status_256).1 = Py.Raise (Py.SystemExit 256) ∧
  Py.exit_status (run RunTests checkout_status_256).1 = 0 ∧
  Py.exit_status (run RunTests checkout_status_256).1 ≠ 256.
Proof. repeat split. discriminate. Qed.

(** C1, amended: [run] never returns to its caller, and when the test
    engine is invoked and returns a status code, [run] hands exactly that
    code to [sys.exit]; the exit status of the process is the code modulo
    256 (for a code that fits a C [long]), and it is the code itself
    exactly when the code lies between 0 and 255. *)
Theorem run_exits_with_engine_status (s : state) :
  (∃ e, (run RunTests s).1 = Py.Raise e) ∧
  (∀ pytest args errno,
     site_packages s !! "pytest" = Some pytest →
     main_args "test-reports" = Py.Ok args →
     (main pytest args (files s)).1 = Py.Ok errno →
     (run RunTests s).1 = Py.Raise (Py.SystemExit errno) ∧
     ((- 2 ^ 63 ≤ errno < 2 ^ 63)%Z →
      Py.exit_status (run RunTests s).1 = errno mod 256) ∧
     (Py.exit_status (run RunTests s).1 = errno ↔ (0 ≤ errno ≤ 255)%Z)).
Proof.
  split.
  - destruct (site_packages s !! "pytest") as [pytest|] eqn:Hpy.
    + rewrite (run_unfold s pytest Hpy). cbn zeta.
      destruct (main pytest _ (files s)).1; eauto.
    + rewrite (run_without_pytest s Hpy). eauto.
  - intros pytest args errno Hpy Hargs Hmain.
    change (main_args "test-reports") with
      (Py.Ok [ "tests"; "--cov=esmvaltool";
               "--cov-report=html:test-reports/coverage_html";
               "--cov-report=xml:test-reports/coverage.xml";
               "--junit-xml=test-reports/report.xml" ]) in Hargs.
    injection Hargs as <-.
    rewrite (run_unfold s pytest Hpy). cbn zeta.
    rewrite Hmain. cbn [fst Py.exit_status].
    assert (Hlong : (- 2 ^ 63 ≤ errno < 2 ^ 63)%Z →
                    (if ((- 2 ^ 63 <=? errno) && (errno <? 2 ^ 63))%Z
                     then errno mod 256 else 255) = errno mod 256).
    { intros [Hlo Hhi].
      apply Z.leb_le in Hlo. apply Z.ltb_lt in Hhi. by rewrite Hlo, Hhi. }
    split; [done|]. split; [exact Hlong|]. split.
    + intros Hsame.
      destruct (Z.leb_spec (- 2 ^ 63) errno), (Z.ltb_spec errno (2 ^ 63));
        cbn [andb] in Hsame; try lia.
      pose proof (Z.mod_pos_bound errno 256 eq_refl) as Hbound.
      rewrite Hsame in Hbound. lia.
    + intros Hbyte. rewrite Hlong by lia. apply Z.mod_small. lia.
Qed.

Lemma run_exits_with_engine_status_witness :
  (run RunTests checkout).1 = Py.Raise (Py.SystemExit 1) ∧
  Py.exit_status (run RunTests checkout).1 = 1.
Proof.
  destruct (proj2 (run_exits_with_engine_status checkout) (fixed_engine 1)
              [ "tests"; "--cov=esmvaltool";
                "--cov-report=html:test-reports/coverage_html";
                "--cov-report=xml:test-reports/coverage.xml";
                "--junit-xml=test-reports/report.xml" ] 1
              eq_refl eq_refl eq_refl) as (Hexit & _ & Hbyte).
  split; [exact Hexit|]. apply (proj2 Hbyte). lia.
Defined.

(** C2, as stated, does not hold: where [pytest] cannot be imported, an
    invocation of [run] ends in [ImportError] and asks the engine for
    nothing. *)
Lemma run_without_engine_requests_nothing :
  site_packages checkout_crlf !! "pytest" = None ∧
  (run RunTests checkout_crlf).1 = Py.Raise (Py.ImportError "pytest") ∧
  invocations (run RunTests checkout_crlf).2 = [].
Proof. repeat split. Qed.

(** C2, amended: an invocation of [run] that finds [pytest] invokes the
    engine once, with five arguments that ask for exactly three report
    sinks: an HTML coverage report in [test-reports/coverage_html], an XML
    coverage report in [test-reports/coverage.xml] and a JUnit XML report
    in [test-reports/report.xml]; an invocation that does not find it ends
    in [ImportError] and asks for nothing. *)
Theorem run_requests_three_reports (s : state) :
  match site_packages s !! "pytest" with
  | Some _ =>
      ∃ args,
        invocations (run RunTests s).2 = (invocations s ++ [args])%list ∧
        args = [ "tests"; "--cov=esmvaltool";
                 "--cov-report=html:test-reports/coverage_html";
                 "--cov-report=xml:test-reports/coverage.xml";
                 "--junit-xml=test-reports/report.xml" ] ∧
        sinks args = [ CoverageReport "html" "test-reports/coverage_html";
                       CoverageReport "xml" "test-reports/coverage.xml";
                       JUnitXml "test-reports/report.xml" ]
  | None =>
      (run RunTests s).1 = Py.Raise (Py.ImportError "pytest") ∧
      invocations (run RunTests s).2 = invocations s
  end.
Proof.
  destruct (site_packages s !! "pytest") as [pytest|] eqn:Hpy.
  - eexists. split; [|split; [reflexivity|]].
    + rewrite (run_unfold s pytest Hpy). cbn zeta.
      destruct (main pytest _ (files s)).1; reflexivity.
    + reflexivity.
  - by rewrite (run_without_pytest s Hpy).
Qed.

(** C8: for every report directory the three report paths are that
    directory followed by [/coverage_html], [/coverage.xml] and
    [/report.xml], so each has the directory as its prefix; [run] calls the
    engine with the arguments built from the one directory
    [test-reports]. *)
Theorem report_paths_share_directory (report_dir : string) :
  ∃ args,
    main_args report_dir = Py.Ok args ∧
    sink_path <$> sinks args =
      [ report_dir +:+ "/coverage_html";
        report_dir +:+ "/coverage.xml";
        report_dir +:+ "/report.xml" ] ∧
    Forall (λ p, String.prefix (report_dir +:+ "/") p = true)
           (sink_path <$> sinks args) ∧
    (report_dir = "test-reports" →
     ∀ s pytest, site_packages s !! "pytest" = Some pytest →
       invocations (run RunTests s).2 = (invocations s ++ [args])%list).
Proof.
  eexists. split; [apply main_args_eq|].
  assert (Hpaths : sink_path <$> sinks
            [ "tests"; "--cov=esmvaltool";
              "--cov-report=html:" +:+ report_dir +:+ "/coverage_html";
              "--cov-report=xml:" +:+ report_dir +:+ "/coverage.xml";
              "--junit-xml=" +:+ report_dir +:+ "/report.xml" ] =
            [ report_dir +:+ "/coverage_html";
              report_dir +:+ "/coverage.xml";
              report_dir +:+ "/report.xml" ]) by reflexivity.
  split; [exact Hpaths|split].
  - rewrite Hpaths.
    repeat constructor; by rewrite prefix_app_cancel.
  - intros -> s pytest Hpy.
    rewrite (run_unfold s pytest Hpy). cbn zeta.
    destruct (main pytest _ (files s)).1; reflexivity.
Qed.

Lemma report_paths_share_directory_witness :
  ∃ args,
    main_args "test-reports" = Py.Ok args ∧
    invocations (run RunTests checkout).2 = (invocations checkout ++ [args])%list.
Proof.
  destruct (report_paths_share_directory "test-reports")
    as (args & Hargs & _ & _ & Hrun).
  exists args. split; [exact Hargs|].
  apply (Hrun eq_refl checkout (fixed_engine 1)). reflexivity.
Defined.

(** C9: [RunTests] declares no options, and each of its two hooks returns
    [None] and leaves the whole program state, the command object
    included, as it found it. *)
Theorem hooks_do_nothing :
  user_options RunTests = [] ∧
  ∀ s : state,
    initialize_options RunTests s = (Py.Ok (), s) ∧
    finalize_options RunTests s = (Py.Ok (), s).
Proof. split; [reflexivity|]. intros s. split; reflexivity. Qed.

(** ** The package descriptor *)

Lemma universal_newlines_no_cr (text : string) :
  Py.has_cr text = false → Py.universal_newlines text = text.
Proof.
  induction text as [|c rest IH]; cbn; [done|].
  destruct (Ascii.eqb c Py.CR); cbn; [done|].
  intros Hrest. by rewrite IH.
Qed.

Lemma script_with_readme (s : state) (raw text : string) :
  files s !! "README.md" = Some (File raw) →
  decode s raw = Some text →
  script s = (Py.Ok (keywords (Py.universal_newlines text)), s).
Proof.
  intros Hfile Htext. unfold script, mbind, M_bind, open_read.
  by rewrite Hfile, Htext.
Qed.

Lemma script_registered (s : state) (kw : setup_keywords) :
  registered (script s) = Some kw →
  ∃ raw text,
    files s !! "README.md" = Some (File raw) ∧
    decode s raw = Some text ∧
    kw = keywords (Py.universal_newlines text).
Proof.
  unfold registered, script, mbind, M_bind, open_read.
  destruct (files s !! "README.md") as [[raw| |]|]; cbn; [|done..].
  destruct (decode s raw) as [text|] eqn:Htext; cbn; [|done].
  intros [= <-]. eauto.
Qed.

(** C3: the descriptor has a single entry-point group, [console_scripts],
    with a single declaration; it reads as the command [esmvaltool] bound
    to the attribute [run] of the module [esmvaltool.main], a module of the
    package [esmvaltool] that the script lists and does not define; the
    commands installed for the descriptor are that one command. *)
Theorem one_console_entry_point (readme_text : string) :
  let kw := keywords readme_text in
  dom (entry_points kw) = {[ "console_scripts" ]} ∧
  ∃ ep,
    mapM parse_entry_point (console_scripts kw) = Some [ep] ∧
    command ep = "esmvaltool" ∧
    target_module ep = "esmvaltool.main" ∧
    target_attr ep = "run" ∧
    top_package (target_module ep) = "esmvaltool" ∧
    top_package (target_module ep) ∈ packages kw ∧
    installed_commands kw = Some [command ep].
Proof.
  intros kw. split.
  - unfold kw; cbn. apply dom_singleton_L.
  - assert (Hcs : console_scripts kw = ["esmvaltool = esmvaltool.main:run"]).
    { unfold console_scripts, kw; cbn. by rewrite lookup_singleton_eq. }
    unfold installed_commands. rewrite Hcs.
    eexists. split; [reflexivity|]. cbn.
    repeat split; apply list_elem_of_here.
Qed.

(** C4: as sets, the runtime dependencies are the twelve names and the
    test-only dependencies the five names that the specification lists. *)
Theorem dependency_sets (readme_text : string) :
  list_to_set (install_requires (keywords readme_text)) = spec_runtime_dependencies ∧
  list_to_set (tests_require (keywords readme_text)) = spec_test_dependencies.
Proof.
  unfold spec_runtime_dependencies, spec_test_dependencies.
  split; apply set_eq; intros x; cbn; set_solver.
Qed.

(** C6: both dependency lists are non-empty and free of duplicates, and
    the names they share are exactly [pytest] and [pytest-cov]. *)
Theorem dependency_lists_shape (readme_text : string) :
  let kw := keywords readme_text in
  install_requires kw ≠ [] ∧
  tests_require kw ≠ [] ∧
  NoDup (install_requires kw) ∧
  NoDup (tests_require kw) ∧
  ∀ x, x ∈ install_requires kw ∧ x ∈ tests_require kw ↔
       x = "pytest" ∨ x = "pytest-cov".
Proof.
  intros kw. split; [done|]. split; [done|].
  split; [|split].
  - apply (bool_decide_unpack _). vm_compute. reflexivity.
  - apply (bool_decide_unpack _). vm_compute. reflexivity.
  - intros x.
    assert (Hcommon : filter (.∈ tests_require kw) (install_requires kw)
                      = ["pytest"; "pytest-cov"]) by (vm_compute; reflexivity).
    transitivity (x ∈ filter (.∈ tests_require kw) (install_requires kw)).
    + rewrite list_elem_of_filter. tauto.
    + rewrite Hcommon, !elem_of_cons, elem_of_nil. tauto.
Qed.



(** C10, as stated, does not hold: a README whose lines end in [CR LF]
    reaches [setup] with a description that is not the contents of the
    file, and a README that exists but cannot be decoded does not reach
    [setup] at all. *)
Lemma description_not_verbatim :
  (files checkout_crlf !! "README.md" = Some (File readme_crlf) ∧
   ∃ kw, registered (script checkout_crlf) = Some kw ∧
         description kw ≠ readme_crlf) ∧
  (is_Some (files checkout_undecodable !! "README.md") ∧
   (script checkout_undecodable).1 = Py.Raise Py.UnicodeDecodeError ∧
   registered (script checkout_undecodable) = None).
Proof.
  split; split.
  - reflexivity.
  - eexists. split; [reflexivity|]. discriminate.
  - eexists. reflexivity.
  - split; reflexivity.
Qed.

(** C10, amended: when [README.md] is a file whose bytes decode, the
    script reaches [setup] with, as description, the decoded text after
    universal newlines, which is the text itself when it holds no carriage
    return; when the bytes do not decode the script raises
    [UnicodeDecodeError], and when [README.md] does not exist it raises
    [FileNotFoundError]: in both cases before [setup] is called, so that
    nothing is registered and the state is as it was. *)
Theorem description_is_readme (s : state) :
  (∀ raw text,
     files s !! "README.md" = Some (File raw) →
     decode s raw = Some text →
     ∃ kw, registered (script s) = Some kw ∧
           description kw = Py.universal_newlines text ∧
           (Py.has_cr text = false → description kw = text)) ∧
  (∀ raw,
     files s !! "README.md" = Some (File raw) →
     decode s raw = None →
     script s = (Py.Raise Py.UnicodeDecodeError, s) ∧
     registered (script s) = None) ∧
  (files s !! "README.md" = None →
     script s = (Py.Raise (Py.FileNotFoundError "README.md"), s) ∧
     registered (script s) = None).
Proof.
  split; [|split].
  - intros raw text Hfile Htext.
    exists (keywords (Py.universal_newlines text)).
    rewrite (script_with_readme s raw text Hfile Htext).
    repeat split. cbn. apply universal_newlines_no_cr.
  - intros raw Hfile Hbad. unfold registered, script, mbind, M_bind, open_read.
    by rewrite Hfile, Hbad.
  - intros Hnone. unfold registered, script, mbind, M_bind, open_read.
    by rewrite Hnone.
Qed.

Lemma description_is_readme_witness :
  (∃ kw, registered (script checkout) = Some kw ∧
         description kw = "ESMValTool") ∧
  (∃ kw, registered (script checkout_crlf) = Some kw ∧
         description kw = Py.universal_newlines readme_crlf) ∧
  registered (script checkout_undecodable) = None ∧
  registered (script checkout_without_readme) = None.
Proof.
  destruct (description_is_readme checkout) as (Hok & _ & _).
  destruct (Hok "ESMValTool" "ESMValTool" eq_refl eq_refl)
    as (kw & Hkw & _ & Hsame).
  destruct (description_is_readme checkout_crlf) as (Hcrlf & _ & _).
  destruct (Hcrlf readme_crlf readme_crlf eq_refl eq_refl)
    as (kw' & Hkw' & Hdesc' & _).
  destruct (description_is_readme checkout_undecodable) as (_ & Hbad & _).
  destruct (description_is_readme checkout_without_readme) as (_ & _ & Hnone).
  split; [|split; [|split]].
  - exists kw. split; [exact Hkw|]. apply Hsame. reflexivity.
  - exists kw'. split; [exact Hkw'|exact Hdesc'].
  - apply (Hbad (String "255"%char EmptyString)); reflexivity.
  - apply Hnone. reflexivity.
Defined.

(** ** The missing test directory *)

(** [run] does not look at the file system itself: with the engine found,
    what happens when [tests] is missing is the engine's answer.  An
    engine that reported 0 there would make [run] exit with 0. *)
Example run_leaves_missing_tests_to_engine :
  let s := {| instance := ∅; files := ∅;
              site_packages := {[ "pytest" := fixed_engine 0 ]};
              invocations := [];
              decode := ascii_codec |} in
  files s !! "tests" = None ∧
  Py.exit_status (run RunTests s).1 = 0.
Proof. split; reflexivity. Qed.

(** * Further properties of the script *)

(** ** What [run] does around the engine call *)

(** X1: an exception raised by the test engine goes through [run]
    unchanged: [sys.exit] is not reached, the call is on the log, the files
    are as the engine left them, and unless the exception is itself a
    [SystemExit] the process ends with status 1. *)
Theorem run_propagates_engine_exception
    (s : state) (pytest : py_module) (args : list string) (e : Py.exn) :
  site_packages s !! "pytest" = Some pytest →
  main_args "test-reports" = Py.Ok args →
  (main pytest args (files s)).1 = Py.Raise e →
  (run RunTests s).1 = Py.Raise e ∧
  invocations (run RunTests s).2 = (invocations s ++ [args])%list ∧
  files (run RunTests s).2 = (main pytest args (files s)).2 ∧
  ((∀ code, e ≠ Py.SystemExit code) → Py.exit_status (run RunTests s).1 = 1).
Proof.
  intros Hpy Hargs Hmain.
  change (main_args "test-reports") with
    (Py.Ok [ "tests"; "--cov=esmvaltool";
             "--cov-report=html:test-reports/coverage_html";
             "--cov-report=xml:test-reports/coverage.xml";
             "--junit-xml=test-reports/report.xml" ]) in Hargs.
  injection Hargs as <-.
  rewrite (run_unfold s pytest Hpy). cbn zeta. rewrite Hmain. cbn.
  repeat split. intros Hne. destruct e; try reflexivity.
  by destruct (Hne code).
Qed.

Lemma run_propagates_engine_exception_witness :
  (run RunTests checkout_broken_engine).1 = Py.Raise Py.ValueError ∧
  Py.exit_status (run RunTests checkout_broken_engine).1 = 1.
Proof.
  destruct (run_propagates_engine_exception checkout_broken_engine
              (raising_engine Py.ValueError)
              [ "tests"; "--cov=esmvaltool";
                "--cov-report=html:test-reports/coverage_html";
                "--cov-report=xml:test-reports/coverage.xml";
                "--junit-xml=test-reports/report.xml" ]
              Py.ValueError eq_refl eq_refl eq_refl)
    as (Hraise & _ & _ & Hstatus).
  split; [exact Hraise|]. apply Hstatus. intros code. discriminate.
Defined.

(** X2: [run] calls the engine once when [pytest] can be imported and not
    at all otherwise; the calls logged before stay on the log, in order. *)
Theorem run_invokes_engine_once (s : state) :
  invocations (run RunTests s).2 =
    (invocations s ++
       match site_packages s !! "pytest" with
       | Some _ => [[ "tests"; "--cov=esmvaltool";
                      "--cov-report=html:test-reports/coverage_html";
                      "--cov-report=xml:test-reports/coverage.xml";
                      "--junit-xml=test-reports/report.xml" ]]
       | None => []
       end)%list.
Proof.
  destruct (site_packages s !! "pytest") as [pytest|] eqn:Hpy.
  - rewrite (run_unfold s pytest Hpy). cbn zeta.
    destruct (main pytest _ (files s)).1; reflexivity.
  - rewrite (run_without_pytest s Hpy). cbn. by rewrite app_nil_r.
Qed.

(** X3: [run] writes no file of its own and never touches the command
    object or the installed modules: afterwards the files are those the
    engine left (the old ones when the engine was not found), and the
    instance attributes and the modules are as before. *)
Theorem run_frame (s : state) :
  instance (run RunTests s).2 = instance s ∧
  site_packages (run RunTests s).2 = site_packages s ∧
  files (run RunTests s).2 =
    match site_packages s !! "pytest" with
    | Some pytest =>
        (main pytest [ "tests"; "--cov=esmvaltool";
                       "--cov-report=html:test-reports/coverage_html";
                       "--cov-report=xml:test-reports/coverage.xml";
                       "--junit-xml=test-reports/report.xml" ] (files s)).2
    | None => files s
    end.
Proof.
  destruct (site_packages s !! "pytest") as [pytest|] eqn:Hpy.
  - rewrite (run_unfold s pytest Hpy). cbn zeta.
    destruct (main pytest _ (files s)).1; done.
  - by rewrite (run_without_pytest s Hpy).
Qed.



(** X5: [run] takes nothing from the command object and nothing from the
    log: two states with the same files and the same [pytest] give the
    same result and the same files afterwards. *)
Theorem run_ignores_command_object (s1 s2 : state) :
  files s1 = files s2 →
  site_packages s1 !! "pytest" = site_packages s2 !! "pytest" →
  (run RunTests s1).1 = (run RunTests s2).1 ∧
  files (run RunTests s1).2 = files (run RunTests s2).2.
Proof.
  intros Hfiles Hpy.
  destruct (site_packages s2 !! "pytest") as [pytest|] eqn:Hpy2.
  - rewrite (run_unfold s1 pytest Hpy), (run_unfold s2 pytest Hpy2).
    cbn zeta. rewrite Hfiles.
    destruct (main pytest _ (files s2)).1; done.
  - by rewrite (run_without_pytest s1 Hpy), (run_without_pytest s2 Hpy2).
Qed.

Lemma run_ignores_command_object_witness :
  instance checkout ≠ instance checkout_later ∧
  (run RunTests checkout).1 = (run RunTests checkout_later).1 ∧
  files (run RunTests checkout).2 = files (run RunTests checkout_later).2.
Proof.
  split.
  - intros Heq. apply (f_equal (λ m, m !! "dry_run")) in Heq. discriminate Heq.
  - apply (run_ignores_command_object checkout checkout_later); reflexivity.
Defined.

(** X6: the life cycle around [run].  However often the build tool calls
    the two hooks before [run], and whatever it would do after [run], the
    outcome is that of [run] alone: the same exception, the same state,
    and the code after [run] is never entered. *)
Theorem run_alone_decides {B : Type}
    (hooks : list (M ())) (after : () → M B) (s : state) :
  Forall (λ h, h = initialize_options RunTests ∨ h = finalize_options RunTests)
         hooks →
  ∃ e, (run RunTests s).1 = Py.Raise e ∧
       foldr (λ h rest, h ≫= λ _, rest) (run RunTests ≫= after) hooks s
         = (Py.Raise e, (run RunTests s).2).
Proof.
  intros Hhooks.
  assert (Hrun : ∃ e, run RunTests s = (Py.Raise e, (run RunTests s).2)).
  { destruct (site_packages s !! "pytest") as [pytest|] eqn:Hpy.
    - rewrite (run_unfold s pytest Hpy). cbn zeta.
      destruct (main pytest _ (files s)).1; eauto.
    - rewrite (run_without_pytest s Hpy). eauto. }
  destruct Hrun as [e He]. exists e. split; [by rewrite He|].
  induction Hhooks as [|h hooks [->| ->] _ IH]; cbn [foldr].
  - unfold mbind at 1, M_bind. by rewrite He.
  - exact IH.
  - exact IH.
Qed.

Lemma run_alone_decides_witness :
  ∃ e, (run RunTests checkout).1 = Py.Raise e ∧
       (initialize_options RunTests ≫= λ _,
        finalize_options RunTests ≫= λ _,
        run RunTests ≫= λ _, mret 0) checkout
         = (Py.Raise e, (run RunTests checkout).2).
Proof.
  apply (run_alone_decides
           [initialize_options RunTests; finalize_options RunTests]
           (λ _, mret 0) checkout).
  repeat constructor.
Defined.

(** ** The module body *)



(** X8: when [README.md] is a directory, opening it raises
    [IsADirectoryError]; [setup] is not reached and nothing is
    registered. *)
Theorem readme_directory_stops_script (s : state) :
  files s !! "README.md" = Some Dir →
  script s = (Py.Raise (Py.IsADirectoryError "README.md"), s) ∧
  registered (script s) = None ∧
  Py.exit_status (script s).1 = 1.
Proof.
  intros Hdir. unfold registered, script, mbind, M_bind, open_read.
  by rewrite Hdir.
Qed.

Lemma readme_directory_stops_script_witness :
  script checkout_readme_dir =
    (Py.Raise (Py.IsADirectoryError "README.md"), checkout_readme_dir) ∧
  registered (script checkout_readme_dir) = None ∧
  Py.exit_status (script checkout_readme_dir).1 = 1.
Proof.
  apply (readme_directory_stops_script checkout_readme_dir). reflexivity.
Defined.

(** ** The reports and the [test] subcommand *)

(** X10: whatever the report directory, the three reports asked for go to
    three different paths, so none overwrites another. *)
Theorem report_paths_distinct (report_dir : string) (args : list string) :
  main_args report_dir = Py.Ok args →
  length (sinks args) = 3%nat ∧ NoDup (sink_path <$> sinks args).
Proof.
  rewrite main_args_eq. intros [= <-].
  change (sinks _) with
    [ CoverageReport "html" (report_dir +:+ "/coverage_html");
      CoverageReport "xml" (report_dir +:+ "/coverage.xml");
      JUnitXml (report_dir +:+ "/report.xml") ].
  split; [reflexivity|]. cbn [fmap list_fmap sink_path].
  repeat apply NoDup_cons_2; try apply NoDup_nil_2;
    rewrite ?elem_of_cons, elem_of_nil;
    intros Hin; repeat destruct Hin as [Hin|Hin]; try done;
    apply String.app_inj in Hin; discriminate Hin.
Qed.

Lemma report_paths_distinct_witness :
  length (sinks [ "tests"; "--cov=esmvaltool";
                  "--cov-report=html:test-reports/coverage_html";
                  "--cov-report=xml:test-reports/coverage.xml";
                  "--junit-xml=test-reports/report.xml" ]) = 3%nat ∧
  NoDup (sink_path <$> sinks
           [ "tests"; "--cov=esmvaltool";
             "--cov-report=html:test-reports/coverage_html";
             "--cov-report=xml:test-reports/coverage.xml";
             "--junit-xml=test-reports/report.xml" ]).
Proof.
  apply (report_paths_distinct "test-reports"). reflexivity.
Defined.

(** X11: the [test] subcommand as the descriptor registers it.  When the
    module body reaches [setup], the descriptor overrides the subcommand
    [test] and no other; the class registered there, taken through its
    two hooks and its [run] in whatever state the build tool runs it,
    hands the code the engine returns to [sys.exit], and the process ends
    with that code when it lies between 0 and 255. *)
Theorem test_subcommand_end_to_end
    (s s' : state) (kw : setup_keywords) (pytest : py_module) (errno : Z) :
  registered (script s) = Some kw →
  site_packages s' !! "pytest" = Some pytest →
  (main pytest [ "tests"; "--cov=esmvaltool";
                 "--cov-report=html:test-reports/coverage_html";
                 "--cov-report=xml:test-reports/coverage.xml";
                 "--junit-xml=test-reports/report.xml" ] (files s')).1
    = Py.Ok errno →
  (∀ cmd, cmd ≠ "test" → cmdclass kw !! cmd = None) ∧
  ∃ c, cmdclass kw !! "test" = Some c ∧
       let life_cycle :=
         initialize_options c ≫= λ _, finalize_options c ≫= λ _, run c in
       (life_cycle s').1 = Py.Raise (Py.SystemExit errno) ∧
       ((0 ≤ errno ≤ 255)%Z → Py.exit_status (life_cycle s').1 = errno).
Proof.
  intros (raw & text & _ & _ & ->)%script_registered Hpy Hmain.
  cbn [keywords cmdclass]. split.
  - intros cmd Hcmd. by apply lookup_singleton_ne.
  - exists RunTests. split; [apply lookup_singleton_eq|]. cbn zeta.
    change ((initialize_options RunTests ≫= λ _,
             finalize_options RunTests ≫= λ _, run RunTests) s')
      with (run RunTests s').
    rewrite (run_unfold s' pytest Hpy). cbn zeta. rewrite Hmain.
    cbn [fst Py.exit_status]. split; [done|]. intros Hbyte.
    assert (Hlo : (- 2 ^ 63 <=? errno)%Z = true) by (apply Z.leb_le; lia).
    assert (Hhi : (errno <? 2 ^ 63)%Z = true) by (apply Z.ltb_lt; lia).
    rewrite Hlo, Hhi. apply Z.mod_small. lia.
Qed.

Lemma test_subcommand_end_to_end_witness :
  ∃ c, cmdclass (keywords "ESMValTool") !! "test" = Some c ∧
       let life_cycle :=
         initialize_options c ≫= λ _, finalize_options c ≫= λ _, run c in
       (life_cycle checkout_later).1 = Py.Raise (Py.SystemExit 1) ∧
       Py.exit_status (life_cycle checkout_later).1 = 1.
Proof.
  destruct (test_subcommand_end_to_end checkout checkout_later
              (keywords "ESMValTool") (fixed_engine 1) 1
              eq_refl eq_refl eq_refl) as (_ & c & Hc & Hexit & Hbyte).
  exists c. split; [exact Hc|]. split; [exact Hexit|]. apply Hbyte. lia.
Defined.
